(** * The arrow-key listener of [assets/app_js.js]

    The script registers one [keydown] listener on the document and, in
    that listener, turns the four arrow keys into calls of [click()] on
    four buttons of the page, found by their identifiers.

    The handler is embedded as the source writes it: four independent
    [if] statements run one after the other over the page, each of them
    one comparison of [event.key] with a literal and, when it holds, one
    [document.getElementById(..).click()].  The host operations are
    embedded with the behaviour the handler can observe:
    [getElementById] yields the first element of the document with the
    identifier or [null]; a call of [click] on [null], or on an element
    that has no such method, throws a [TypeError]; the exceptions of the
    click listeners of the page do not reach the caller of [click()],
    the host reports them; and an exception leaving a listener is
    reported by the host, which goes on with the next listener and the
    next event. *)

From Stdlib Require Import String List Bool Arith Lia.
Import ListNotations.
Open Scope string_scope.
Open Scope list_scope.

(** ** Values of the host language *)

(** An element of the page: its node (which one it is), its [id]
    attribute, and whether [click] is a method of it.  Two elements may
    carry the same identifier.  The elements of HTML, the buttons among
    them, have the method; those of SVG and MathML have none, and the
    property can be shadowed (a form with a control named [click]). *)
Record Element : Type := mkElement {
  node : nat;
  el_id : string;
  has_click : bool
}.

(** The values the handler handles: the result of a lookup is an element
    or [null], the result of the handler is [undefined]. *)
Inductive JsValue : Type :=
| JsUndefined
| JsNull
| JsElement (e : Element).

Inductive JsError : Type :=
| TypeError (msg : string).

(** How a piece of code ends: with a value, or with an exception. *)
Inductive Completion (A : Type) : Type :=
| Normal (a : A)
| Throw (err : JsError).
Arguments Normal {A} a.
Arguments Throw {A} err.

(** The event object a key listener receives.  The handler reads [key]
    alone; the other fields are those a keyboard event carries as well. *)
Record KeyboardEvent : Type := mkEvent {
  type : string;
  key : string;
  code : string;
  ctrlKey : bool;
  shiftKey : bool;
  altKey : bool;
  metaKey : bool;
  repeat : bool
}.

(** What the handler does, step by step, as an observer of one call sees
    it. *)
Inductive Action : Type :=
| Compare (lhs rhs : string)
| GetElementById (i : string)
| Click (e : Element).

Definition is_compare (a : Action) : bool :=
  match a with Compare _ _ => true | _ => false end.

Definition is_lookup (a : Action) : bool :=
  match a with GetElementById _ => true | _ => false end.

Definition is_click (a : Action) : bool :=
  match a with Click _ => true | _ => false end.

(** The elements activated by a run, in order. *)
Fixpoint activations (t : list Action) : list Element :=
  match t with
  | [] => []
  | Click e :: t' => e :: activations t'
  | _ :: t' => activations t'
  end.

(** A comparison that holds is a branch taken. *)
Definition holds (a : Action) : bool :=
  match a with Compare l r => String.eqb l r | _ => false end.

Definition branches_taken (t : list Action) : nat :=
  length (filter holds t).

(** The function a listener was registered with: the one of this script,
    or one of another script of the page. *)
Inductive Callback : Type :=
| clickButtonFunction_ref
| Foreign (name : string).

Definition callback_eqb (a b : Callback) : bool :=
  match a, b with
  | clickButtonFunction_ref, clickButtonFunction_ref => true
  | Foreign n, Foreign m => String.eqb n m
  | _, _ => false
  end.

(** An entry of the document's listener list: event type and callback. *)
Definition Listener : Type := (string * Callback)%type.

Definition listener_eqb (a b : Listener) : bool :=
  String.eqb (fst a) (fst b) && callback_eqb (snd a) (snd b).

(** The entry the script adds at load. *)
Definition keydown_binding : Listener := ("keydown", clickButtonFunction_ref).

(** How many times the handler is bound to [keydown] in a listener list. *)
Definition bindings (ls : list Listener) : nat :=
  length (filter (listener_eqb keydown_binding) ls).

(** The message of the error thrown by [null.click()]. *)
Definition null_click_message : string :=
  "Cannot read properties of null (reading 'click')".

Definition undefined_click_message : string :=
  "Cannot read properties of undefined (reading 'click')".

(** The message of the error thrown by [e.click()] on an element with no
    such method. *)
Definition no_click_message : string :=
  "document.getElementById(...).click is not a function".

(** ** The page and the host

    The page is the document, as the list of its elements in tree order,
    and the rest: whatever the scripts attached to the buttons keep
    ([Host]).  That belongs to other code; the handler is verified for
    every such type. *)
Record Page (Host : Type) : Type := mkPage {
  document : list Element;
  host : Host
}.
Arguments mkPage {Host} document host.
Arguments document {Host} p.
Arguments host {Host} p.

(** The host: the page, the document's listener list, and what an
    observer has seen so far, the actions of the handler and the errors
    reported on the console. *)
Record Browser (Host : Type) : Type := mkBrowser {
  page : Page Host;
  listeners : list Listener;
  activity : list Action;
  console : list JsError
}.
Arguments mkBrowser {Host} page listeners activity console.
Arguments page {Host} b.
Arguments listeners {Host} b.
Arguments activity {Host} b.
Arguments console {Host} b.

Section Handler.

Context {Host : Type}.

(** What a click on an element does: the behaviour attached to the
    buttons elsewhere, as the page it leaves and the errors its click
    listeners threw.  Those errors do not reach the caller of [click()]:
    the host reports them.  The handler is verified for every such
    behaviour. *)
Variable onclick : Element -> Page Host -> Page Host * list JsError.

Local Abbreviation Page := (Page Host).
Local Abbreviation Browser := (Browser Host).

(** ** Code over the page

    A piece of code runs on a page and ends with a completion, the page
    it leaves, the actions it performed, and the errors the host
    reported for the click listeners that ran in it.  An exception stops
    the code at the point it is thrown and keeps what was done before. *)
Definition M (A : Type) : Type :=
  Page -> Completion A * Page * list Action * list JsError.

Definition ret {A : Type} (a : A) : M A :=
  fun p => (Normal a, p, [], []).

Definition throw {A : Type} (err : JsError) : M A :=
  fun p => (Throw err, p, [], []).

Definition bind {A B : Type} (m : M A) (f : A -> M B) : M B :=
  fun p =>
    match m p with
    | (Normal a, p1, t1, r1) =>
        match f a p1 with
        | (c, p2, t2, r2) => (c, p2, t1 ++ t2, r1 ++ r2)
        end
    | (Throw err, p1, t1, r1) => (Throw err, p1, t1, r1)
    end.

Notation "x <- m ;; k" := (bind m (fun x => k))
  (at level 61, m at next level, right associativity).
Notation "m ;;; k" := (bind m (fun _ => k))
  (at level 61, right associativity).

(** [a == b] on two strings: [event.key] of a keyboard event and the
    literal are both strings, on which [==] compares the contents. *)
Definition loose_eq (a b : string) : M bool :=
  fun p => (Normal (String.eqb a b), p, [Compare a b], []).

(** [document.getElementById(i)]: the first element of the document, in
    tree order, whose identifier is [i], or [null]. *)
Definition lookup (i : string) (d : list Element) : option Element :=
  find (fun e => String.eqb (el_id e) i) d.

Definition getElementById (i : string) : M JsValue :=
  fun p =>
    (Normal (match lookup i (document p) with
             | Some e => JsElement e
             | None => JsNull
             end), p, [GetElementById i], []).

(** [v.click()]: on an element that has the method, the activation of
    the element, with whatever the page attached to it, the errors of
    its listeners reported and not thrown; on an element without the
    method the call throws; on [null] and [undefined] the property
    access throws. *)
Definition click (v : JsValue) : M JsValue :=
  match v with
  | JsElement e =>
      if has_click e then
        fun p =>
          (Normal JsUndefined, fst (onclick e p), [Click e],
           snd (onclick e p))
      else throw (TypeError no_click_message)
  | JsNull => throw (TypeError null_click_message)
  | JsUndefined => throw (TypeError undefined_click_message)
  end.

(** [if (c) { body }] with no [else]. *)
Definition if_ (c : M bool) (body : M JsValue) : M unit :=
  b <- c ;; if b then (body ;;; ret tt) else ret tt.

(** ** The handler *)
Definition clickButtonFunction (event : KeyboardEvent) : M JsValue :=
  if_ (loose_eq (key event) "ArrowLeft")
      (e <- getElementById "move-left" ;; click e) ;;;
  if_ (loose_eq (key event) "ArrowRight")
      (e <- getElementById "move-right" ;; click e) ;;;
  if_ (loose_eq (key event) "ArrowUp")
      (e <- getElementById "move-up" ;; click e) ;;;
  if_ (loose_eq (key event) "ArrowDown")
      (e <- getElementById "move-down" ;; click e) ;;;
  ret JsUndefined.

(** The four parts of a run. *)
Definition completion_of {A : Type}
    (r : Completion A * Page * list Action * list JsError)
  : Completion A := fst (fst (fst r)).
Definition page_of {A : Type}
    (r : Completion A * Page * list Action * list JsError)
  : Page := snd (fst (fst r)).
Definition actions_of {A : Type}
    (r : Completion A * Page * list Action * list JsError)
  : list Action := snd (fst r).
Definition reports_of {A : Type}
    (r : Completion A * Page * list Action * list JsError)
  : list JsError := snd r.

(** The page after the clicks on a list of elements, in order. *)
Definition apply_clicks (es : list Element) (p : Page) : Page :=
  fold_left (fun q e => fst (onclick e q)) es p.

(** ** The host: registration and delivery of events *)

(** [document.addEventListener(ty, cb)]: the entry is appended, unless
    the list holds it already. *)
Definition addEventListener (ty : string) (cb : Callback) (b : Browser)
  : Browser :=
  if existsb (listener_eqb (ty, cb)) (listeners b) then b
  else mkBrowser (page b) (listeners b ++ [(ty, cb)]) (activity b) (console b).

(** The statement the script runs at load (line 1). *)
Definition script_load (b : Browser) : Browser :=
  addEventListener "keydown" clickButtonFunction_ref b.

(** Calling a registered callback.  The callbacks of other scripts are
    not part of this program: they do nothing here. *)
Definition call (cb : Callback) (event : KeyboardEvent) : M JsValue :=
  match cb with
  | clickButtonFunction_ref => clickButtonFunction event
  | Foreign _ => ret JsUndefined
  end.

(** The errors the host reports for a completion. *)
Definition report {A : Type} (c : Completion A) : list JsError :=
  match c with
  | Normal _ => []
  | Throw err => [err]
  end.

(** One listener on one event, on a page: it runs when its type is the
    event's.  The host gets the page it leaves, its actions, and the
    errors to report: those of the click listeners that ran in it, then
    the exception it throws, if any. *)
Definition respond (event : KeyboardEvent) (l : Listener) (p : Page)
  : Page * list Action * list JsError :=
  if String.eqb (fst l) (type event) then
    match call (snd l) event p with
    | (c, p', t, r) => (p', t, r ++ report c)
    end
  else (p, [], []).

(** The host records what the listener did and goes on: an exception
    goes no further than the console. *)
Definition invoke (event : KeyboardEvent) (b : Browser) (l : Listener)
  : Browser :=
  match respond event l (page b) with
  | (p', t, errs) =>
      mkBrowser p' (listeners b) (activity b ++ t) (console b ++ errs)
  end.

(** One event: the listeners registered when it arrives, in order. *)
Definition deliver (event : KeyboardEvent) (b : Browser) : Browser :=
  fold_left (invoke event) (listeners b) b.

(** The events of a session, one at a time, in order of arrival. *)
Definition dispatch (events : list KeyboardEvent) (b : Browser) : Browser :=
  fold_left (fun b' event => deliver event b') events b.

(** Each event of a session with the page it arrives on. *)
Fixpoint arrivals (events : list KeyboardEvent) (b : Browser)
  : list (KeyboardEvent * Page) :=
  match events with
  | [] => []
  | event :: events' => (event, page b) :: arrivals events' (deliver event b)
  end.

(** What a list of listeners does on one event, and what a session does
    on a listener list, told apart from the records of the browser. *)
Fixpoint respond_all (event : KeyboardEvent) (ls : list Listener) (p : Page)
  : Page * list Action * list JsError :=
  match ls with
  | [] => (p, [], [])
  | l :: ls' =>
      match respond event l p with
      | (p1, t1, errs1) =>
          match respond_all event ls' p1 with
          | (p2, t2, errs2) => (p2, t1 ++ t2, errs1 ++ errs2)
          end
      end
  end.

Fixpoint session (events : list KeyboardEvent) (ls : list Listener) (p : Page)
  : Page * list Action * list JsError :=
  match events with
  | [] => (p, [], [])
  | event :: events' =>
      match respond_all event ls p with
      | (p1, t1, errs1) =>
          match session events' ls p1 with
          | (p2, t2, errs2) => (p2, t1 ++ t2, errs1 ++ errs2)
          end
      end
  end.

(** The system after the script is loaded on [b0]: the load itself, then
    one event after the other.  These are the steps this script takes
    part in; it has no other statement, and none that removes a
    listener. *)
Inductive step : Browser -> Browser -> Prop :=
| step_event (event : KeyboardEvent) (b : Browser) :
    step b (deliver event b).

Inductive reachable (b0 : Browser) : Browser -> Prop :=
| reach_load : reachable b0 (script_load b0)
| reach_step (b b' : Browser) :
    reachable b0 b -> step b b' -> reachable b0 b'.

(** ** The handler as a table

    The four [if] statements as the mapping they implement, from key
    names to element identifiers. *)
Definition target_of (k : string) : option string :=
  if String.eqb k "ArrowLeft" then Some "move-left"
  else if String.eqb k "ArrowRight" then Some "move-right"
  else if String.eqb k "ArrowUp" then Some "move-up"
  else if String.eqb k "ArrowDown" then Some "move-down"
  else None.

Definition recognized_keys : list string :=
  ["ArrowLeft"; "ArrowRight"; "ArrowUp"; "ArrowDown"].

(** The comparisons of one call that runs to its end. *)
Definition comparisons (k : string) : list Action :=
  map (Compare k) recognized_keys.

(** The comparisons made up to and including the one that holds. *)
Fixpoint comparisons_upto (k : string) (lits : list string) : list Action :=
  match lits with
  | [] => []
  | l :: lits' =>
      Compare k l :: (if String.eqb k l then [] else comparisons_upto k lits')
  end.

(** The comparisons made after the one that holds. *)
Fixpoint comparisons_after (k : string) (lits : list string) : list Action :=
  match lits with
  | [] => []
  | l :: lits' =>
      if String.eqb k l then map (Compare k) lits'
      else comparisons_after k lits'
  end.

Definition table_run (event : KeyboardEvent) (p : Page)
  : Completion JsValue * Page * list Action * list JsError :=
  match target_of (key event) with
  | None => (Normal JsUndefined, p, comparisons (key event), [])
  | Some i =>
      match lookup i (document p) with
      | Some e =>
          if has_click e then
            (Normal JsUndefined, fst (onclick e p),
             comparisons_upto (key event) recognized_keys
               ++ [GetElementById i; Click e]
               ++ comparisons_after (key event) recognized_keys,
             snd (onclick e p))
          else
            (Throw (TypeError no_click_message), p,
             comparisons_upto (key event) recognized_keys
               ++ [GetElementById i], [])
      | None =>
          (Throw (TypeError null_click_message), p,
           comparisons_upto (key event) recognized_keys
             ++ [GetElementById i], [])
      end
  end.

End Handler.

(** ** Sample pages and events

    A page whose buttons count the clicks they receive, with the four
    buttons or with none of them, and a few key events. *)
Definition counting_click (e : Element) (p : Page nat)
  : Page nat * list JsError :=
  (mkPage (document p) (S (host p)), []).

Definition btn_left : Element := mkElement 1 "move-left" true.
Definition btn_right : Element := mkElement 2 "move-right" true.
Definition btn_up : Element := mkElement 3 "move-up" true.
Definition btn_down : Element := mkElement 4 "move-down" true.

Definition board_page : Page nat :=
  mkPage [mkElement 0 "board" true; btn_left; btn_right; btn_up; btn_down;
          mkElement 5 "move-left" true] 0.

Definition bare_page : Page nat :=
  mkPage [mkElement 0 "board" true] 0.

(** A page on which the first click removes the button it hits. *)
Definition removing_click (e : Element) (p : Page nat)
  : Page nat * list JsError :=
  (mkPage (filter (fun x => negb (Nat.eqb (node x) (node e))) (document p))
          (S (host p)), []).

(** A page whose buttons count their clicks and whose click listeners
    throw. *)
Definition listener_error : JsError := TypeError "move is not defined".

Definition throwing_click (e : Element) (p : Page nat)
  : Page nat * list JsError :=
  (mkPage (document p) (S (host p)), [listener_error]).

(** A page whose left arrow is drawn in SVG: an element with the
    identifier and no [click] method. *)
Definition svg_left : Element := mkElement 1 "move-left" false.

Definition drawn_page : Page nat :=
  mkPage [mkElement 0 "board" true; svg_left; btn_right; btn_up; btn_down] 0.

Definition keydown (k : string) : KeyboardEvent :=
  mkEvent "keydown" k k false false false false false.

Definition ctrl_keydown (k : string) : KeyboardEvent :=
  mkEvent "keydown" k k true false false false false.

Definition repeated_keydown (k : string) : KeyboardEvent :=
  mkEvent "keydown" k k false false false false true.

Definition keyup (k : string) : KeyboardEvent :=
  mkEvent "keyup" k k false false false false false.

(** A browser on which nothing happened yet. *)
Definition fresh_browser (p : Page nat) : Browser nat :=
  mkBrowser p [("keyup", Foreign "hud")] [] [].

(** * Properties *)

Section Facts.

Context {Host : Type}.
Variable onclick : Element -> Page Host -> Page Host * list JsError.

(** ** The handler runs as its table *)

Lemma clickButtonFunction_table (event : KeyboardEvent) (p : Page Host) :
  clickButtonFunction onclick event p = table_run onclick event p.
Proof.
  unfold clickButtonFunction, table_run, target_of, comparisons,
    recognized_keys, if_, loose_eq, getElementById, click, bind, ret, throw.
  cbn [comparisons_upto comparisons_after map].
  destruct (String.eqb (key event) "ArrowLeft") eqn:E1.
  { apply String.eqb_eq in E1. rewrite E1. cbn.
    destruct (lookup "move-left" (document p)) as [e|]; [|reflexivity].
    cbn. destruct (has_click e); cbn; rewrite ?app_nil_r; reflexivity. }
  destruct (String.eqb (key event) "ArrowRight") eqn:E2.
  { apply String.eqb_eq in E2. rewrite E2. cbn.
    destruct (lookup "move-right" (document p)) as [e|]; [|reflexivity].
    cbn. destruct (has_click e); cbn; rewrite ?app_nil_r; reflexivity. }
  destruct (String.eqb (key event) "ArrowUp") eqn:E3.
  { apply String.eqb_eq in E3. rewrite E3. cbn.
    destruct (lookup "move-up" (document p)) as [e|]; [|reflexivity].
    cbn. destruct (has_click e); cbn; rewrite ?app_nil_r; reflexivity. }
  destruct (String.eqb (key event) "ArrowDown") eqn:E4.
  { apply String.eqb_eq in E4. rewrite E4. cbn.
    destruct (lookup "move-down" (document p)) as [e|]; [|reflexivity].
    cbn. destruct (has_click e); cbn; rewrite ?app_nil_r; reflexivity. }
  reflexivity.
Qed.

(** The four keys and the one case left. *)
Lemma key_cases (k : string) :
  k = "ArrowLeft" \/ k = "ArrowRight" \/ k = "ArrowUp" \/ k = "ArrowDown" \/
  (String.eqb k "ArrowLeft" = false /\ String.eqb k "ArrowRight" = false /\
   String.eqb k "ArrowUp" = false /\ String.eqb k "ArrowDown" = false).
Proof.
  destruct (String.eqb k "ArrowLeft") eqn:E1;
    [apply String.eqb_eq in E1; tauto|].
  destruct (String.eqb k "ArrowRight") eqn:E2;
    [apply String.eqb_eq in E2; tauto|].
  destruct (String.eqb k "ArrowUp") eqn:E3;
    [apply String.eqb_eq in E3; tauto|].
  destruct (String.eqb k "ArrowDown") eqn:E4;
    [apply String.eqb_eq in E4; tauto|].
  tauto.
Qed.

Lemma target_of_bound (k i : string) :
  In (k, i) [("ArrowLeft", "move-left"); ("ArrowRight", "move-right");
             ("ArrowUp", "move-up"); ("ArrowDown", "move-down")] ->
  target_of k = Some i.
Proof.
  cbn [In]. intros [H | [H | [H | [H | []]]]];
    injection H as Hk Hi; subst k i; reflexivity.
Qed.

Lemma target_of_unbound (k : string) :
  ~ In k ["ArrowLeft"; "ArrowRight"; "ArrowUp"; "ArrowDown"] ->
  target_of k = None.
Proof.
  intros H. unfold target_of.
  destruct (key_cases k) as [E | [E | [E | [E | (E1 & E2 & E3 & E4)]]]];
    try (exfalso; apply H; cbn [In]; subst k; tauto).
  now rewrite E1, E2, E3, E4.
Qed.

Lemma lookup_some (i : string) (d : list Element) (e : Element) :
  lookup i d = Some e -> In e d /\ el_id e = i.
Proof.
  unfold lookup. intros H. apply find_some in H. destruct H as [Hin Hid].
  split; [exact Hin | now apply String.eqb_eq].
Qed.

Lemma lookup_none (i : string) (d : list Element) :
  lookup i d = None -> forall e, In e d -> el_id e <> i.
Proof.
  unfold lookup. intros H e Hin. apply (find_none _ _ H) in Hin.
  now apply String.eqb_neq.
Qed.

Lemma activations_app (t u : list Action) :
  activations (t ++ u) = activations t ++ activations u.
Proof.
  induction t as [| a t IH]; [reflexivity|].
  destruct a; cbn; now rewrite IH.
Qed.

(** What the comparisons of the four keys look like around a lookup. *)
Lemma comparisons_only (k : string) :
  activations (comparisons_upto k recognized_keys) = [] /\
  activations (comparisons_after k recognized_keys) = [] /\
  filter is_lookup (comparisons_upto k recognized_keys) = [] /\
  filter is_lookup (comparisons_after k recognized_keys) = [] /\
  length (filter is_compare (comparisons_upto k recognized_keys)) +
  length (filter is_compare (comparisons_after k recognized_keys)) <= 4.
Proof.
  unfold recognized_keys. cbn [comparisons_upto comparisons_after map].
  destruct (String.eqb k "ArrowLeft"), (String.eqb k "ArrowRight"),
    (String.eqb k "ArrowUp"), (String.eqb k "ArrowDown");
    cbn; repeat split; lia.
Qed.

(** ** The three ways a call can go *)

Lemma run_bound (event : KeyboardEvent) (p : Page Host) (i : string)
    (e : Element) :
  target_of (key event) = Some i ->
  lookup i (document p) = Some e ->
  has_click e = true ->
  clickButtonFunction onclick event p =
    (Normal JsUndefined, fst (onclick e p),
     comparisons_upto (key event) recognized_keys
       ++ [GetElementById i; Click e]
       ++ comparisons_after (key event) recognized_keys,
     snd (onclick e p)).
Proof.
  intros Ht Hl Hc. rewrite clickButtonFunction_table. unfold table_run.
  now rewrite Ht, Hl, Hc.
Qed.

Lemma run_no_click (event : KeyboardEvent) (p : Page Host) (i : string)
    (e : Element) :
  target_of (key event) = Some i ->
  lookup i (document p) = Some e ->
  has_click e = false ->
  clickButtonFunction onclick event p =
    (Throw (TypeError no_click_message), p,
     comparisons_upto (key event) recognized_keys ++ [GetElementById i], []).
Proof.
  intros Ht Hl Hc. rewrite clickButtonFunction_table. unfold table_run.
  now rewrite Ht, Hl, Hc.
Qed.

Lemma run_absent (event : KeyboardEvent) (p : Page Host) (i : string) :
  target_of (key event) = Some i ->
  lookup i (document p) = None ->
  clickButtonFunction onclick event p =
    (Throw (TypeError null_click_message), p,
     comparisons_upto (key event) recognized_keys ++ [GetElementById i], []).
Proof.
  intros Ht Hl. rewrite clickButtonFunction_table. unfold table_run.
  now rewrite Ht, Hl.
Qed.

Lemma run_unbound (event : KeyboardEvent) (p : Page Host) :
  target_of (key event) = None ->
  clickButtonFunction onclick event p =
    (Normal JsUndefined, p, comparisons (key event), []).
Proof.
  intros Ht. rewrite clickButtonFunction_table. unfold table_run.
  now rewrite Ht.
Qed.

(** The page a call leaves is the page after the clicks the call made,
    and nothing else. *)
Lemma handler_frame (event : KeyboardEvent) (p : Page Host) :
  page_of (clickButtonFunction onclick event p) =
  apply_clicks onclick
    (activations (actions_of (clickButtonFunction onclick event p))) p.
Proof.
  destruct (comparisons_only (key event)) as (Hu & Ha & _).
  destruct (target_of (key event)) as [i|] eqn:Ht.
  - destruct (lookup i (document p)) as [e|] eqn:Hl.
    + destruct (has_click e) eqn:Hc.
      * rewrite (run_bound _ _ _ _ Ht Hl Hc). unfold page_of, actions_of.
        cbn [fst snd]. rewrite !activations_app, Hu, Ha. reflexivity.
      * rewrite (run_no_click _ _ _ _ Ht Hl Hc). unfold page_of, actions_of.
        cbn [fst snd]. rewrite activations_app, Hu. reflexivity.
    + rewrite (run_absent _ _ _ Ht Hl). unfold page_of, actions_of.
      cbn [fst snd]. rewrite activations_app, Hu. reflexivity.
  - rewrite (run_unbound _ _ Ht). reflexivity.
Qed.

(** A call is decided by the key and the document. *)
Lemma handler_reads_key_only (e1 e2 : KeyboardEvent) (p : Page Host) :
  key e1 = key e2 ->
  clickButtonFunction onclick e1 p = clickButtonFunction onclick e2 p.
Proof.
  intros H. unfold clickButtonFunction. now rewrite H.
Qed.

Lemma handler_reads_document_only (event : KeyboardEvent)
    (p q : Page Host) :
  document p = document q ->
  completion_of (clickButtonFunction onclick event p) =
    completion_of (clickButtonFunction onclick event q) /\
  actions_of (clickButtonFunction onclick event p) =
    actions_of (clickButtonFunction onclick event q).
Proof.
  intros Hd. rewrite !clickButtonFunction_table. unfold table_run.
  rewrite Hd. destruct (target_of (key event)) as [i|]; [|now split].
  destruct (lookup i (document q)) as [e|]; [|now split].
  destruct (has_click e); now split.
Qed.

(** ** Delivery, apart from the records *)

Lemma fold_invoke (event : KeyboardEvent) (l0 : list Listener) :
  forall (p : Page Host) (ls : list Listener) (a : list Action)
         (c : list JsError),
    fold_left (invoke onclick event) l0 (mkBrowser p ls a c) =
    match respond_all onclick event l0 p with
    | (p', t, errs) => mkBrowser p' ls (a ++ t) (c ++ errs)
    end.
Proof.
  induction l0 as [| l l0 IH]; intros p ls a c; cbn [fold_left respond_all].
  - now rewrite !app_nil_r.
  - unfold invoke at 2. cbn [page listeners activity console].
    destruct (respond onclick event l p) as [[p1 t1] errs1].
    rewrite IH.
    destruct (respond_all onclick event l0 p1) as [[p2 t2] errs2].
    now rewrite !app_assoc.
Qed.

Lemma deliver_respond (event : KeyboardEvent) (p : Page Host)
    (ls : list Listener) (a : list Action) (c : list JsError) :
  deliver onclick event (mkBrowser p ls a c) =
  match respond_all onclick event ls p with
  | (p', t, errs) => mkBrowser p' ls (a ++ t) (c ++ errs)
  end.
Proof. unfold deliver. cbn [listeners]. apply fold_invoke. Qed.

Lemma dispatch_session (events : list KeyboardEvent) :
  forall (p : Page Host) (ls : list Listener) (a : list Action)
         (c : list JsError),
    dispatch onclick events (mkBrowser p ls a c) =
    match session onclick events ls p with
    | (p', t, errs) => mkBrowser p' ls (a ++ t) (c ++ errs)
    end.
Proof.
  induction events as [| event events IH]; intros p ls a c.
  - cbn. now rewrite !app_nil_r.
  - unfold dispatch in *. cbn [fold_left session].
    rewrite deliver_respond.
    destruct (respond_all onclick event ls p) as [[p1 t1] errs1].
    rewrite IH.
    destruct (session onclick events ls p1) as [[p2 t2] errs2].
    now rewrite !app_assoc.
Qed.

Lemma deliver_listeners (event : KeyboardEvent) (b : Browser Host) :
  listeners (deliver onclick event b) = listeners b.
Proof.
  destruct b as [p ls a c]. rewrite deliver_respond.
  now destruct (respond_all onclick event ls p) as [[p' t] errs].
Qed.

Lemma dispatch_listeners (events : list KeyboardEvent) (b : Browser Host) :
  listeners (dispatch onclick events b) = listeners b.
Proof.
  destruct b as [p ls a c]. rewrite dispatch_session.
  now destruct (session onclick events ls p) as [[p' t] errs].
Qed.

(** A listener list in which the handler is bound to [keydown] once
    answers a keydown event with one call of the handler. *)
Lemma respond_other (event : KeyboardEvent) (l : Listener) (p : Page Host) :
  type event = "keydown" ->
  listener_eqb keydown_binding l = false ->
  respond onclick event l p = (p, [], []).
Proof.
  intros Hty Hl. destruct l as [ty cb]. unfold respond. cbn [fst snd].
  destruct (String.eqb ty (type event)) eqn:E; [|reflexivity].
  destruct cb as [| name]; [|reflexivity].
  apply String.eqb_eq in E. subst ty. rewrite Hty in Hl. discriminate Hl.
Qed.

Lemma respond_bound (event : KeyboardEvent) (l : Listener) (p : Page Host) :
  type event = "keydown" ->
  listener_eqb keydown_binding l = true ->
  respond onclick event l p =
    (page_of (clickButtonFunction onclick event p),
     actions_of (clickButtonFunction onclick event p),
     reports_of (clickButtonFunction onclick event p)
       ++ report (completion_of (clickButtonFunction onclick event p))).
Proof.
  intros Hty Hl. destruct l as [ty cb]. unfold listener_eqb in Hl.
  cbn [fst snd keydown_binding] in Hl. apply andb_true_iff in Hl.
  destruct Hl as [Ht Hc]. apply String.eqb_eq in Ht. subst ty.
  destruct cb as [| name]; [|discriminate Hc].
  unfold respond. cbn [fst snd call]. rewrite Hty, String.eqb_refl.
  now destruct (clickButtonFunction onclick event p) as [[[c p'] t] r].
Qed.

Lemma respond_all_unbound (event : KeyboardEvent) (ls : list Listener)
    (p : Page Host) :
  type event = "keydown" ->
  bindings ls = 0 ->
  respond_all onclick event ls p = (p, [], []).
Proof.
  intros Hty. unfold bindings.
  induction ls as [| l ls IH]; intros Hb; [reflexivity|].
  cbn [filter] in Hb. cbn [respond_all].
  destruct (listener_eqb keydown_binding l) eqn:E; [discriminate Hb|].
  rewrite (respond_other _ _ _ Hty E), (IH Hb). reflexivity.
Qed.

Lemma respond_all_bound_once (event : KeyboardEvent) (ls : list Listener)
    (p : Page Host) :
  type event = "keydown" ->
  bindings ls = 1 ->
  respond_all onclick event ls p =
    (page_of (clickButtonFunction onclick event p),
     actions_of (clickButtonFunction onclick event p),
     reports_of (clickButtonFunction onclick event p)
       ++ report (completion_of (clickButtonFunction onclick event p))).
Proof.
  intros Hty. unfold bindings.
  induction ls as [| l ls IH]; intros Hb; [discriminate Hb|].
  cbn [filter] in Hb. cbn [respond_all].
  destruct (listener_eqb keydown_binding l) eqn:E.
  - rewrite (respond_bound _ _ _ Hty E).
    cbn [length] in Hb. injection Hb as Hb.
    rewrite (respond_all_unbound _ _ _ Hty Hb). now rewrite !app_nil_r.
  - rewrite (respond_other _ _ _ Hty E), (IH Hb). reflexivity.
Qed.

Lemma deliver_keydown_once (event : KeyboardEvent) (b : Browser Host) :
  type event = "keydown" ->
  bindings (listeners b) = 1 ->
  deliver onclick event b =
    mkBrowser (page_of (clickButtonFunction onclick event (page b)))
      (listeners b)
      (activity b ++ actions_of (clickButtonFunction onclick event (page b)))
      (console b
         ++ reports_of (clickButtonFunction onclick event (page b))
         ++ report (completion_of (clickButtonFunction onclick event (page b)))).
Proof.
  intros Hty Hb. destruct b as [p ls a c]. cbn [listeners] in Hb.
  rewrite deliver_respond, (respond_all_bound_once _ _ _ Hty Hb).
  reflexivity.
Qed.

Lemma dispatch_cons (event : KeyboardEvent) (events : list KeyboardEvent)
    (b : Browser Host) :
  dispatch onclick (event :: events) b =
  dispatch onclick events (deliver onclick event b).
Proof. reflexivity. Qed.

Lemma dispatch_keydown_activity (events : list KeyboardEvent) :
  forall b : Browser Host,
    bindings (listeners b) = 1 ->
    Forall (fun event => type event = "keydown") events ->
    activity (dispatch onclick events b) =
    activity b ++
    flat_map (fun a => actions_of (clickButtonFunction onclick (fst a) (snd a)))
             (arrivals onclick events b).
Proof.
  induction events as [| event events IH]; intros b Hb Hall.
  - cbn. now rewrite app_nil_r.
  - inversion Hall as [| ? ? Hty Hall']; subst.
    rewrite dispatch_cons, IH; [| now rewrite deliver_listeners | exact Hall'].
    cbn [arrivals flat_map fst snd].
    rewrite (deliver_keydown_once _ _ Hty Hb) at 1. cbn [activity].
    now rewrite app_assoc.
Qed.

Lemma activations_flat_map {A : Type} (f : A -> list Action) (l : list A) :
  activations (flat_map f l) = flat_map (fun x => activations (f x)) l.
Proof.
  induction l as [| x l IH]; [reflexivity|].
  cbn [flat_map]. now rewrite activations_app, IH.
Qed.

Lemma bound_activations (event : KeyboardEvent) (p : Page Host) (i : string)
    (e : Element) :
  target_of (key event) = Some i ->
  lookup i (document p) = Some e ->
  has_click e = true ->
  activations (actions_of (clickButtonFunction onclick event p)) = [e].
Proof.
  intros Ht Hl Hc. rewrite (run_bound _ _ _ _ Ht Hl Hc).
  destruct (comparisons_only (key event)) as (Hu & Ha & _).
  unfold actions_of. cbn [fst snd]. now rewrite !activations_app, Hu, Ha.
Qed.

(** A call on a page that lacks the target leaves the page and activates
    nothing, whatever the listener list. *)
Lemma respond_all_absent (event : KeyboardEvent) (i : string)
    (p : Page Host) (ls : list Listener) :
  target_of (key event) = Some i ->
  lookup i (document p) = None ->
  exists t errs,
    respond_all onclick event ls p = (p, t, errs) /\ activations t = [].
Proof.
  intros Ht Hl. induction ls as [| [ty cb] ls IH].
  - now exists [], [].
  - destruct IH as (t & errs & IH & Hact). cbn [respond_all].
    unfold respond. cbn [fst snd].
    destruct (String.eqb ty (type event)).
    + destruct cb as [| name]; cbn [call].
      * rewrite (run_absent _ _ _ Ht Hl), IH.
        eexists _, _. split; [reflexivity|].
        destruct (comparisons_only (key event)) as (Hu & _).
        now rewrite !activations_app, Hu, Hact.
      * unfold ret. rewrite IH. now exists t, errs.
    + rewrite IH. now exists t, errs.
Qed.

(** The steps and the branches of one call. *)
Lemma trace_counts (event : KeyboardEvent) (p : Page Host) :
  length (filter is_compare
            (actions_of (clickButtonFunction onclick event p))) <= 4 /\
  length (filter is_lookup
            (actions_of (clickButtonFunction onclick event p))) <= 1 /\
  length (activations
            (actions_of (clickButtonFunction onclick event p))) <= 1 /\
  length (actions_of (clickButtonFunction onclick event p)) <= 6 /\
  branches_taken (actions_of (clickButtonFunction onclick event p)) <= 1.
Proof.
  rewrite clickButtonFunction_table. unfold table_run, branches_taken.
  destruct (key_cases (key event))
    as [E | [E | [E | [E | (E1 & E2 & E3 & E4)]]]].
  1-4: rewrite E; cbn [target_of String.eqb Ascii.eqb Bool.eqb];
       match goal with
       | |- context [lookup ?i ?d] =>
           destruct (lookup i d) as [e|]; [destruct (has_click e)|]
       end; cbn; lia.
  unfold target_of, comparisons, recognized_keys. rewrite E1, E2, E3, E4.
  cbn. rewrite E1, E2, E3, E4. cbn. lia.
Qed.

(** ** C1 *)

(** C1: on a keydown event whose key is one of the four arrow keys, when
    the document holds an element with the matching identifier, an HTML
    element as the buttons of the page are, with its [click] method, the
    handler ends normally after exactly one lookup, of that identifier,
    and exactly one activation, of the element found, which carries the
    identifier; no other element is activated. *)
Theorem arrow_key_clicks_its_button (event : KeyboardEvent) (p : Page Host)
    (i : string) (e : Element) :
  In (key event, i)
     [("ArrowLeft", "move-left"); ("ArrowRight", "move-right");
      ("ArrowUp", "move-up"); ("ArrowDown", "move-down")] ->
  lookup i (document p) = Some e ->
  has_click e = true ->
  completion_of (clickButtonFunction onclick event p) = Normal JsUndefined /\
  activations (actions_of (clickButtonFunction onclick event p)) = [e] /\
  filter is_lookup (actions_of (clickButtonFunction onclick event p))
    = [GetElementById i] /\
  el_id e = i /\ In e (document p) /\
  page_of (clickButtonFunction onclick event p) = fst (onclick e p).
Proof.
  intros Hk Hl Hc. apply target_of_bound in Hk.
  rewrite (run_bound _ _ _ _ Hk Hl Hc).
  destruct (comparisons_only (key event)) as (Hu & Ha & Lu & La & _).
  destruct (lookup_some _ _ _ Hl) as [Hin Hid].
  unfold completion_of, actions_of, page_of. cbn [fst snd].
  rewrite !activations_app, !filter_app, Hu, Ha, Lu, La.
  repeat split; auto.
Qed.

(** ** C3 *)

(** C3: on an event whose key is none of the four arrow keys, the
    handler makes its four comparisons and nothing else: no lookup, no
    activation, no exception, and the page is left as it was. *)
Theorem other_key_does_nothing (event : KeyboardEvent) (p : Page Host) :
  ~ In (key event) ["ArrowLeft"; "ArrowRight"; "ArrowUp"; "ArrowDown"] ->
  clickButtonFunction onclick event p =
    (Normal JsUndefined, p,
     [Compare (key event) "ArrowLeft"; Compare (key event) "ArrowRight";
      Compare (key event) "ArrowUp"; Compare (key event) "ArrowDown"], []) /\
  activations (actions_of (clickButtonFunction onclick event p)) = [] /\
  filter is_lookup (actions_of (clickButtonFunction onclick event p)) = [].
Proof.
  intros H. apply target_of_unbound in H.
  rewrite (run_unbound _ _ H). repeat split.
Qed.

(** ** C2 *)

(** C2, as the code has it: on an event whose key is one of the four
    arrow keys, when the document holds no element with the matching
    identifier, the lookup yields [null] and the call of [click] on it
    throws a [TypeError]; that call of the handler ends there, with no
    activation and the page as it was.  The host reports the error: with
    the handler bound once, a keydown event adds that one error to the
    console.  The listener list is unchanged, and the events that follow
    are handled as if the failed call had not happened. *)
Theorem absent_target_throws (event : KeyboardEvent) (p : Page Host)
    (i : string) :
  In (key event, i)
     [("ArrowLeft", "move-left"); ("ArrowRight", "move-right");
      ("ArrowUp", "move-up"); ("ArrowDown", "move-down")] ->
  lookup i (document p) = None ->
  completion_of (clickButtonFunction onclick event p)
    = Throw (TypeError null_click_message) /\
  activations (actions_of (clickButtonFunction onclick event p)) = [] /\
  page_of (clickButtonFunction onclick event p) = p /\
  forall (ls : list Listener) (a : list Action) (c : list JsError)
         (later : list KeyboardEvent),
    listeners (deliver onclick event (mkBrowser p ls a c)) = ls /\
    page (deliver onclick event (mkBrowser p ls a c)) = p /\
    activations (activity (deliver onclick event (mkBrowser p ls a c)))
      = activations a /\
    page (dispatch onclick later (deliver onclick event (mkBrowser p ls a c)))
      = page (dispatch onclick later (mkBrowser p ls a c)) /\
    listeners
      (dispatch onclick later (deliver onclick event (mkBrowser p ls a c)))
      = listeners (dispatch onclick later (mkBrowser p ls a c)) /\
    activations
      (activity
         (dispatch onclick later (deliver onclick event (mkBrowser p ls a c))))
      = activations (activity (dispatch onclick later (mkBrowser p ls a c))) /\
    (type event = "keydown" -> bindings ls = 1 ->
     console (deliver onclick event (mkBrowser p ls a c))
       = c ++ [TypeError null_click_message]).
Proof.
  intros Hk Hl. apply target_of_bound in Hk.
  destruct (comparisons_only (key event)) as (Hu & _).
  pose proof (run_absent _ _ _ Hk Hl) as Hrun.
  split; [now rewrite Hrun|].
  split; [rewrite Hrun; unfold actions_of; cbn [fst snd];
          now rewrite activations_app, Hu|].
  split; [now rewrite Hrun|].
  intros ls a c later.
  assert (Hcons : type event = "keydown" -> bindings ls = 1 ->
                  console (deliver onclick event (mkBrowser p ls a c))
                  = c ++ [TypeError null_click_message]).
  { intros Hty Hb.
    rewrite (deliver_keydown_once event (mkBrowser p ls a c) Hty Hb).
    cbn [console page]. now rewrite Hrun. }
  revert Hcons. rewrite deliver_respond.
  destruct (respond_all_absent event i p ls Hk Hl) as (t & errs & Hr & Ha).
  rewrite Hr. intros Hcons.
  split; [reflexivity|]. split; [reflexivity|].
  split; [cbn [activity]; now rewrite activations_app, Ha, app_nil_r|].
  rewrite !dispatch_session.
  destruct (session onclick later ls p) as [[p' t'] errs'].
  cbn [page listeners activity].
  split; [reflexivity|]. split; [reflexivity|].
  split; [now rewrite !activations_app, Ha, app_nil_r | exact Hcons].
Qed.

(** ** C4 *)

(** C4: with the handler bound once, the activations of a sequence of
    keydown events are those of the single events, each on the page it
    arrives on, one after the other in order of arrival, after those
    made before; two arrow keys pressed one after the other, each with
    its target, an HTML element, in the document when it arrives, give
    exactly the two activations of the two targets, in the order of the
    presses. *)
Theorem activations_in_order_of_arrival (events : list KeyboardEvent)
    (b : Browser Host) :
  bindings (listeners b) = 1 ->
  Forall (fun event => type event = "keydown") events ->
  activations (activity (dispatch onclick events b)) =
    activations (activity b) ++
    flat_map
      (fun a =>
         activations (actions_of (clickButtonFunction onclick (fst a) (snd a))))
      (arrivals onclick events b) /\
  forall (ev1 ev2 : KeyboardEvent) (i1 i2 : string) (e1 e2 : Element),
    type ev1 = "keydown" -> type ev2 = "keydown" ->
    In (key ev1, i1)
       [("ArrowLeft", "move-left"); ("ArrowRight", "move-right");
        ("ArrowUp", "move-up"); ("ArrowDown", "move-down")] ->
    In (key ev2, i2)
       [("ArrowLeft", "move-left"); ("ArrowRight", "move-right");
        ("ArrowUp", "move-up"); ("ArrowDown", "move-down")] ->
    lookup i1 (document (page b)) = Some e1 ->
    lookup i2 (document (page (deliver onclick ev1 b))) = Some e2 ->
    has_click e1 = true -> has_click e2 = true ->
    activations (activity (dispatch onclick [ev1; ev2] b)) =
      activations (activity b) ++ [e1; e2] /\
    el_id e1 = i1 /\ el_id e2 = i2.
Proof.
  intros Hb Hall. split.
  - rewrite (dispatch_keydown_activity _ _ Hb Hall), activations_app.
    now rewrite activations_flat_map.
  - intros ev1 ev2 i1 i2 e1 e2 Ht1 Ht2 Hk1 Hk2 Hl1 Hl2 Hc1 Hc2.
    apply target_of_bound in Hk1. apply target_of_bound in Hk2.
    split; [| split; [apply (lookup_some _ _ _ Hl1)
                     | apply (lookup_some _ _ _ Hl2)]].
    rewrite (dispatch_keydown_activity [ev1; ev2] b Hb);
      [| repeat constructor; assumption].
    rewrite activations_app, activations_flat_map.
    cbn [arrivals flat_map fst snd].
    rewrite (bound_activations _ _ _ _ Hk1 Hl1 Hc1).
    rewrite (bound_activations _ _ _ _ Hk2 Hl2 Hc2). reflexivity.
Qed.

(** ** C5 *)

(** C5: the handler keeps nothing from one call to the next.  After any
    two histories of events that leave the same document, the same event
    makes the handler end the same way after the same actions; and what
    a call writes is what the clicks it made write, nothing of its own,
    the listener list included. *)
Theorem handler_is_history_independent (event : KeyboardEvent)
    (h1 h2 : list KeyboardEvent) (b1 b2 : Browser Host) :
  document (page (dispatch onclick h1 b1))
    = document (page (dispatch onclick h2 b2)) ->
  completion_of
    (clickButtonFunction onclick event (page (dispatch onclick h1 b1))) =
  completion_of
    (clickButtonFunction onclick event (page (dispatch onclick h2 b2))) /\
  actions_of
    (clickButtonFunction onclick event (page (dispatch onclick h1 b1))) =
  actions_of
    (clickButtonFunction onclick event (page (dispatch onclick h2 b2))) /\
  (forall p : Page Host,
     page_of (clickButtonFunction onclick event p) =
     apply_clicks onclick
       (activations (actions_of (clickButtonFunction onclick event p))) p) /\
  (forall b : Browser Host,
     listeners (deliver onclick event b) = listeners b).
Proof.
  intros Hd.
  destruct (handler_reads_document_only event _ _ Hd) as [Hc Ha].
  repeat split; auto using handler_frame, deliver_listeners.
Qed.

(** ** C6 *)


(** ** C7 *)

(** C7: loaded on a page where the handler is not bound yet, the script
    adds one entry to the listener list, the handler on [keydown]; in
    every state the system reaches from there the list is that one, with
    the handler bound exactly once. *)
Theorem listener_registered_once (b0 b : Browser Host) :
  bindings (listeners b0) = 0 ->
  reachable onclick b0 b ->
  listeners b = listeners b0 ++ [keydown_binding] /\
  bindings (listeners b) = 1.
Proof.
  intros H0 Hr.
  assert (Hload : listeners (script_load b0)
                  = listeners b0 ++ [keydown_binding]).
  { unfold script_load, addEventListener.
    fold keydown_binding.
    destruct (existsb (listener_eqb keydown_binding) (listeners b0)) eqn:E;
      [| reflexivity].
    exfalso. apply existsb_exists in E. destruct E as (l & Hin & Hl).
    unfold bindings in H0. apply length_zero_iff_nil in H0.
    assert (Hf : In l (filter (listener_eqb keydown_binding) (listeners b0)))
      by (apply filter_In; now split).
    now rewrite H0 in Hf. }
  assert (Hls : listeners b = listeners b0 ++ [keydown_binding]).
  { induction Hr as [| b b' Hr IH Hstep]; [exact Hload|].
    destruct Hstep as [event b]. now rewrite deliver_listeners. }
  split; [exact Hls|].
  rewrite Hls. unfold bindings in *. rewrite filter_app, length_app, H0.
  reflexivity.
Qed.

(** ** C8 *)

(** C8: in one call at most one of the four conditions holds, so at most
    one lookup and at most one activation are made: the four literals
    are pairwise distinct, and a key equals at most one of them. *)
Theorem at_most_one_branch (event : KeyboardEvent) (p : Page Host) :
  branches_taken (actions_of (clickButtonFunction onclick event p)) <= 1 /\
  length (filter is_lookup
            (actions_of (clickButtonFunction onclick event p))) <= 1 /\
  length (activations
            (actions_of (clickButtonFunction onclick event p))) <= 1 /\
  NoDup recognized_keys /\
  length (filter (String.eqb (key event)) recognized_keys) <= 1.
Proof.
  destruct (trace_counts event p) as (_ & Hl & Ha & _ & Hb).
  repeat split; try assumption.
  - unfold recognized_keys.
    repeat (constructor; [cbn [In]; intuition discriminate|]). constructor.
  - unfold recognized_keys.
    destruct (key_cases (key event))
      as [E | [E | [E | [E | (E1 & E2 & E3 & E4)]]]].
    1-4: rewrite E; cbn; lia.
    cbn [filter]. rewrite E1, E2, E3, E4. cbn. lia.
Qed.

(** ** C9 *)

(** C9: two keydown events with the same key are handled alike, whatever
    their other fields: on the same page the two calls are equal, on two
    pages with the same document they end the same way after the same
    actions, and the host delivers the two events with the same result.
    So an arrow key pressed with a modifier, or repeated while held,
    triggers the activation of its button as the plain press does. *)
Theorem handler_ignores_other_fields (ev1 ev2 : KeyboardEvent)
    (p q : Page Host) (b : Browser Host) :
  type ev1 = "keydown" -> type ev2 = "keydown" ->
  key ev1 = key ev2 ->
  document p = document q ->
  clickButtonFunction onclick ev1 p = clickButtonFunction onclick ev2 p /\
  completion_of (clickButtonFunction onclick ev1 p) =
    completion_of (clickButtonFunction onclick ev2 q) /\
  actions_of (clickButtonFunction onclick ev1 p) =
    actions_of (clickButtonFunction onclick ev2 q) /\
  deliver onclick ev1 b = deliver onclick ev2 b /\
  (forall (i : string) (e : Element),
     In (key ev1, i)
        [("ArrowLeft", "move-left"); ("ArrowRight", "move-right");
         ("ArrowUp", "move-up"); ("ArrowDown", "move-down")] ->
     lookup i (document p) = Some e ->
     has_click e = true ->
     activations (actions_of (clickButtonFunction onclick ev1 p)) = [e] /\
     activations (actions_of (clickButtonFunction onclick ev2 p)) = [e] /\
     activations (actions_of (clickButtonFunction onclick ev2 q)) = [e]).
Proof.
  intros Ht1 Ht2 Hk Hd.
  destruct (handler_reads_document_only ev2 _ _ Hd) as [Hc Ha].
  rewrite (handler_reads_key_only ev1 ev2 p Hk).
  split; [reflexivity|]. split; [exact Hc|]. split; [exact Ha|]. split.
  - unfold deliver. generalize (listeners b) as ls. intros ls. revert b.
    induction ls as [| l ls IH]; intros b; [reflexivity|].
    cbn [fold_left].
    assert (Hi : invoke onclick ev1 b l = invoke onclick ev2 b l).
    { unfold invoke, respond. rewrite Ht1, Ht2.
      destruct (snd l); cbn [call]; [|reflexivity].
      now rewrite (handler_reads_key_only ev1 ev2 _ Hk). }
    rewrite Hi. apply IH.
  - intros i e Hin Hl Hcl. rewrite Hk in Hin. apply target_of_bound in Hin.
    rewrite <- Ha, (bound_activations _ _ _ _ Hin Hl Hcl). now repeat split.
Qed.

(** ** C10 *)

(** C10: on every event and every page a call of the handler ends, with
    a value or with an exception, after at most four comparisons, at
    most one lookup and at most one click, six steps at most. *)
Theorem handler_total_and_bounded (event : KeyboardEvent) (p : Page Host) :
  exists (c : Completion JsValue) (p' : Page Host) (t : list Action)
         (r : list JsError),
    clickButtonFunction onclick event p = (c, p', t, r) /\
    length (filter is_compare t) <= 4 /\
    length (filter is_lookup t) <= 1 /\
    length (activations t) <= 1 /\
    length t <= 6.
Proof.
  destruct (trace_counts event p) as (Hc & Hl & Ha & Hn & _).
  destruct (clickButtonFunction onclick event p) as [[[c p'] t] r].
  exists c, p', t, r. unfold actions_of in *. cbn [fst snd] in *.
  repeat split; assumption.
Qed.

End Facts.

(** * The properties on the sample pages *)

(** The left arrow on the board: one click, on the first of the two
    elements called [move-left]. *)
Lemma arrow_key_clicks_its_button_witness :
  In (key (keydown "ArrowLeft"), "move-left")
     [("ArrowLeft", "move-left"); ("ArrowRight", "move-right");
      ("ArrowUp", "move-up"); ("ArrowDown", "move-down")] /\
  lookup "move-left" (document board_page) = Some btn_left /\
  has_click btn_left = true /\
  activations
    (actions_of (clickButtonFunction counting_click (keydown "ArrowLeft")
                   board_page)) = [btn_left].
Proof.
  split; [left; reflexivity | split; [reflexivity | split; [reflexivity|]]].
  apply (arrow_key_clicks_its_button counting_click (keydown "ArrowLeft")
           board_page "move-left" btn_left);
    [left; reflexivity | reflexivity | reflexivity].
Defined.

(** The left arrow on a page without the buttons: the call does not end
    normally, and the host has an error to report. *)
Lemma absent_target_raises :
  In (key (keydown "ArrowLeft"), "move-left")
     [("ArrowLeft", "move-left"); ("ArrowRight", "move-right");
      ("ArrowUp", "move-up"); ("ArrowDown", "move-down")] /\
  lookup "move-left" (document bare_page) = None /\
  ~ (exists v : JsValue,
       completion_of
         (clickButtonFunction counting_click (keydown "ArrowLeft") bare_page)
       = Normal v) /\
  completion_of
    (clickButtonFunction counting_click (keydown "ArrowLeft") bare_page)
  = Throw (TypeError null_click_message) /\
  console
    (deliver counting_click (keydown "ArrowLeft")
       (script_load (fresh_browser bare_page)))
  = [TypeError null_click_message].
Proof.
  split; [left; reflexivity|].
  split; [reflexivity|].
  split; [intros [v Hv]; discriminate Hv|].
  split; reflexivity.
Qed.

(** The up arrow on a page without the buttons, after the script is
    loaded: the call throws and the console has the error. *)
Lemma absent_target_throws_witness :
  In (key (keydown "ArrowUp"), "move-up")
     [("ArrowLeft", "move-left"); ("ArrowRight", "move-right");
      ("ArrowUp", "move-up"); ("ArrowDown", "move-down")] /\
  lookup "move-up" (document bare_page) = None /\
  completion_of
    (clickButtonFunction counting_click (keydown "ArrowUp") bare_page)
  = Throw (TypeError null_click_message) /\
  console
    (deliver counting_click (keydown "ArrowUp")
       (script_load (fresh_browser bare_page)))
  = [TypeError null_click_message].
Proof.
  split; [right; right; left; reflexivity | split; [reflexivity|]].
  destruct (absent_target_throws counting_click (keydown "ArrowUp") bare_page
              "move-up" (or_intror (or_intror (or_introl eq_refl))) eq_refl)
    as (Hthrow & _ & _ & Hhost).
  split; [exact Hthrow|].
  destruct (Hhost [("keyup", Foreign "hud"); keydown_binding] [] [] [])
    as (_ & _ & _ & _ & _ & _ & Hconsole).
  exact (Hconsole eq_refl eq_refl).
Defined.

(** [Enter] on the board. *)
Lemma other_key_does_nothing_witness :
  ~ In (key (keydown "Enter"))
       ["ArrowLeft"; "ArrowRight"; "ArrowUp"; "ArrowDown"] /\
  activations
    (actions_of (clickButtonFunction counting_click (keydown "Enter")
                   board_page)) = [].
Proof.
  assert (H : ~ In (key (keydown "Enter"))
                   ["ArrowLeft"; "ArrowRight"; "ArrowUp"; "ArrowDown"])
    by (cbn; intuition discriminate).
  split; [exact H|].
  apply (other_key_does_nothing counting_click (keydown "Enter") board_page H).
Defined.

(** Left, then up, on the board after the script is loaded. *)
Lemma activations_in_order_of_arrival_witness :
  bindings (listeners (script_load (fresh_browser board_page))) = 1 /\
  activations
    (activity
       (dispatch counting_click [keydown "ArrowLeft"; keydown "ArrowUp"]
          (script_load (fresh_browser board_page))))
  = [btn_left; btn_up].
Proof.
  split; [reflexivity|].
  apply (proj2 (activations_in_order_of_arrival counting_click []
                  (script_load (fresh_browser board_page))
                  eq_refl (Forall_nil _))
           (keydown "ArrowLeft") (keydown "ArrowUp")
           "move-left" "move-up" btn_left btn_up);
    try reflexivity.
  - left; reflexivity.
  - right; right; left; reflexivity.
Defined.

(** The right arrow after no event and after two. *)
Lemma handler_is_history_independent_witness :
  document
    (page (dispatch counting_click []
             (script_load (fresh_browser board_page)))) =
  document
    (page (dispatch counting_click [keydown "ArrowLeft"; keydown "a"]
             (script_load (fresh_browser board_page)))) /\
  actions_of
    (clickButtonFunction counting_click (keydown "ArrowRight")
       (page (dispatch counting_click []
                (script_load (fresh_browser board_page))))) =
  actions_of
    (clickButtonFunction counting_click (keydown "ArrowRight")
       (page (dispatch counting_click [keydown "ArrowLeft"; keydown "a"]
                (script_load (fresh_browser board_page))))).
Proof.
  split; [reflexivity|].
  apply (handler_is_history_independent counting_click
           (keydown "ArrowRight") [] [keydown "ArrowLeft"; keydown "a"]
           (script_load (fresh_browser board_page))
           (script_load (fresh_browser board_page)) eq_refl).
Defined.

(** The listener list after the load and one key. *)
Lemma listener_registered_once_witness :
  bindings (listeners (fresh_browser board_page)) = 0 /\
  bindings
    (listeners
       (deliver counting_click (keydown "ArrowLeft")
          (script_load (fresh_browser board_page)))) = 1.
Proof.
  split; [reflexivity|].
  apply (listener_registered_once counting_click (fresh_browser board_page));
    [reflexivity|].
  apply reach_step with (b := script_load (fresh_browser board_page));
    constructor.
Defined.

(** Ctrl with the left arrow, and the left arrow repeated while held:
    the same call, and the click on the left button in both. *)
Lemma handler_ignores_other_fields_witness :
  key (ctrl_keydown "ArrowLeft") = key (repeated_keydown "ArrowLeft") /\
  ctrlKey (ctrl_keydown "ArrowLeft") = true /\
  repeat (repeated_keydown "ArrowLeft") = true /\
  clickButtonFunction counting_click (ctrl_keydown "ArrowLeft") board_page =
  clickButtonFunction counting_click (repeated_keydown "ArrowLeft")
    board_page /\
  activations
    (actions_of (clickButtonFunction counting_click
                   (ctrl_keydown "ArrowLeft") board_page)) = [btn_left] /\
  activations
    (actions_of (clickButtonFunction counting_click
                   (repeated_keydown "ArrowLeft") board_page)) = [btn_left].
Proof.
  split; [reflexivity|]. split; [reflexivity|]. split; [reflexivity|].
  destruct (handler_ignores_other_fields counting_click
              (ctrl_keydown "ArrowLeft") (repeated_keydown "ArrowLeft")
              board_page board_page (script_load (fresh_browser board_page))
              eq_refl eq_refl eq_refl eq_refl)
    as (Hsame & _ & _ & _ & Hclick).
  split; [exact Hsame|].
  destruct (Hclick "move-left" btn_left (or_introl eq_refl) eq_refl eq_refl)
    as (H1 & H2 & _).
  split; [exact H1 | exact H2].
Defined.

(** ** More runs *)

Example ctrl_left_clicks :
  activations
    (actions_of (clickButtonFunction counting_click (ctrl_keydown "ArrowLeft")
                   board_page)) = [btn_left].
Proof. reflexivity. Qed.

Example repeated_down_clicks :
  activations
    (actions_of (clickButtonFunction counting_click
                   (repeated_keydown "ArrowDown") board_page)) = [btn_down].
Proof. reflexivity. Qed.

Example left_run :
  clickButtonFunction counting_click (keydown "ArrowLeft") board_page =
  (Normal JsUndefined, mkPage (document board_page) 1,
   [Compare "ArrowLeft" "ArrowLeft"; GetElementById "move-left";
    Click btn_left; Compare "ArrowLeft" "ArrowRight";
    Compare "ArrowLeft" "ArrowUp"; Compare "ArrowLeft" "ArrowDown"], []).
Proof. reflexivity. Qed.

Example left_run_absent :
  clickButtonFunction counting_click (keydown "ArrowLeft") bare_page =
  (Throw (TypeError null_click_message), bare_page,
   [Compare "ArrowLeft" "ArrowLeft"; GetElementById "move-left"], []).
Proof. reflexivity. Qed.

(** The left arrow on the page whose left arrow is drawn in SVG: the
    element is found, and has no [click] to call. *)
Example left_run_on_the_drawn_page :
  clickButtonFunction counting_click (keydown "ArrowLeft") drawn_page =
  (Throw (TypeError no_click_message), drawn_page,
   [Compare "ArrowLeft" "ArrowLeft"; GetElementById "move-left"], []).
Proof. reflexivity. Qed.

(** The left arrow on the board whose click listeners throw: the click
    is made, the call ends normally, and the console has the error of
    the listener. *)
Example left_on_the_throwing_board :
  activations
    (activity
       (deliver throwing_click (keydown "ArrowLeft")
          (script_load (fresh_browser board_page)))) = [btn_left] /\
  console
    (deliver throwing_click (keydown "ArrowLeft")
       (script_load (fresh_browser board_page))) = [listener_error].
Proof. split; reflexivity. Qed.

(** A key released is not a key pressed: the listener is on [keydown]. *)
Example keyup_is_not_delivered :
  activity
    (deliver counting_click (keyup "ArrowLeft")
       (script_load (fresh_browser board_page))) = [].
Proof. reflexivity. Qed.

(** When a click removes the button it hits, the next press of the same
    key reaches the next element with the identifier. *)
Example left_twice_on_a_changing_page :
  activations
    (activity
       (dispatch removing_click [keydown "ArrowLeft"; keydown "ArrowLeft"]
          (script_load (fresh_browser board_page))))
  = [btn_left; mkElement 5 "move-left" true].
Proof. reflexivity. Qed.

(** After a press that failed, the keys go on working once the buttons
    are there: the listener is still bound. *)
Example failed_press_then_working_press :
  listeners
    (deliver counting_click (keydown "ArrowLeft")
       (script_load (fresh_browser bare_page)))
  = [("keyup", Foreign "hud"); keydown_binding].
Proof. reflexivity. Qed.

(** * Further properties of the handler and of sessions *)

Section Sessions.

Context {Host : Type}.
Variable onclick : Element -> Page Host -> Page Host * list JsError.

Lemma target_of_some (k i : string) :
  target_of k = Some i ->
  In (k, i) [("ArrowLeft", "move-left"); ("ArrowRight", "move-right");
             ("ArrowUp", "move-up"); ("ArrowDown", "move-down")].
Proof.
  intros H.
  destruct (key_cases k) as [E | [E | [E | [E | (E1 & E2 & E3 & E4)]]]].
  1-4: subst k; cbn in H; injection H as <-; cbn [In]; auto 10.
  unfold target_of in H. rewrite E1, E2, E3, E4 in H. discriminate H.
Qed.

(** The elements a call activates and the errors it leaves to report,
    read off the key and the document. *)
Lemma run_activations (event : KeyboardEvent) (p : Page Host) :
  activations (actions_of (clickButtonFunction onclick event p)) =
  match target_of (key event) with
  | Some i =>
      match lookup i (document p) with
      | Some e => if has_click e then [e] else []
      | None => []
      end
  | None => []
  end.
Proof.
  destruct (comparisons_only (key event)) as (Hu & Ha & _).
  destruct (target_of (key event)) as [i|] eqn:Ht.
  - destruct (lookup i (document p)) as [e|] eqn:Hl;
      [destruct (has_click e) eqn:Hc|].
    + apply (bound_activations onclick _ _ _ _ Ht Hl Hc).
    + rewrite (run_no_click onclick _ _ _ _ Ht Hl Hc). unfold actions_of.
      cbn [fst snd]. now rewrite activations_app, Hu.
    + rewrite (run_absent onclick _ _ _ Ht Hl). unfold actions_of.
      cbn [fst snd]. now rewrite activations_app, Hu.
  - now rewrite (run_unbound onclick _ _ Ht).
Qed.

Lemma run_errors (event : KeyboardEvent) (p : Page Host) :
  reports_of (clickButtonFunction onclick event p)
    ++ report (completion_of (clickButtonFunction onclick event p)) =
  match target_of (key event) with
  | Some i =>
      match lookup i (document p) with
      | Some e =>
          if has_click e then snd (onclick e p)
          else [TypeError no_click_message]
      | None => [TypeError null_click_message]
      end
  | None => []
  end.
Proof.
  destruct (target_of (key event)) as [i|] eqn:Ht.
  - destruct (lookup i (document p)) as [e|] eqn:Hl;
      [destruct (has_click e) eqn:Hc|].
    + rewrite (run_bound onclick _ _ _ _ Ht Hl Hc).
      unfold reports_of, completion_of. cbn [fst snd report].
      apply app_nil_r.
    + now rewrite (run_no_click onclick _ _ _ _ Ht Hl Hc).
    + now rewrite (run_absent onclick _ _ _ Ht Hl).
  - now rewrite (run_unbound onclick _ _ Ht).
Qed.

Lemma apply_clicks_app (es1 es2 : list Element) (p : Page Host) :
  apply_clicks onclick (es1 ++ es2) p =
  apply_clicks onclick es2 (apply_clicks onclick es1 p).
Proof. unfold apply_clicks. apply fold_left_app. Qed.

Lemma apply_clicks_document (es : list Element) :
  (forall e q, document (fst (onclick e q)) = document q) ->
  forall p : Page Host, document (apply_clicks onclick es p) = document p.
Proof.
  intros Hs. induction es as [| e es IH]; intros p; [reflexivity|].
  unfold apply_clicks in *. cbn [fold_left]. now rewrite IH, Hs.
Qed.

(** ** X1 *)

(** X1: a call of the handler ends with an exception exactly when the
    key is one of the four arrow keys and its target cannot be clicked:
    the document holds no element with the matching identifier, and the
    exception is the [TypeError] of a property read on [null], or the
    element found has no [click] method, and the exception is the
    [TypeError] of a call of what is no function.  The other keys, and
    the arrow keys whose target has the method, never throw, whatever
    the click listeners do. *)
Theorem handler_throws_exactly_on_unusable_target (event : KeyboardEvent)
    (p : Page Host) (err : JsError) :
  completion_of (clickButtonFunction onclick event p) = Throw err <->
  exists i : string,
    In (key event, i)
       [("ArrowLeft", "move-left"); ("ArrowRight", "move-right");
        ("ArrowUp", "move-up"); ("ArrowDown", "move-down")] /\
    (lookup i (document p) = None /\ err = TypeError null_click_message \/
     exists e : Element,
       lookup i (document p) = Some e /\ has_click e = false /\
       err = TypeError no_click_message).
Proof.
  split.
  - destruct (target_of (key event)) as [i|] eqn:Ht.
    + destruct (lookup i (document p)) as [e|] eqn:Hl;
        [destruct (has_click e) eqn:Hc|].
      * rewrite (run_bound onclick _ _ _ _ Ht Hl Hc). discriminate.
      * rewrite (run_no_click onclick _ _ _ _ Ht Hl Hc).
        unfold completion_of. cbn [fst snd]. intros H. injection H as <-.
        exists i. split; [now apply target_of_some|].
        right. exists e. now repeat split.
      * rewrite (run_absent onclick _ _ _ Ht Hl).
        unfold completion_of. cbn [fst snd]. intros H. injection H as <-.
        exists i. split; [now apply target_of_some|]. left. now split.
    + rewrite (run_unbound onclick _ _ Ht). discriminate.
  - intros (i & Hk & [(Hl & ->) | (e & Hl & Hc & ->)]);
      apply target_of_bound in Hk.
    + now rewrite (run_absent onclick _ _ _ Hk Hl).
    + now rewrite (run_no_click onclick _ _ _ _ Hk Hl Hc).
Qed.

(** ** X2 *)

(** X2: the four conditions are tested in the order of the source, left,
    right, up, down, and a call that ends normally tests all four, also
    after one of them held.  A call that throws stops in the branch that
    failed: its last step is the lookup of that branch, and the
    conditions of the later branches are not tested. *)
Theorem comparisons_in_source_order (event : KeyboardEvent)
    (p : Page Host) :
  match completion_of (clickButtonFunction onclick event p) with
  | Normal _ =>
      filter is_compare (actions_of (clickButtonFunction onclick event p)) =
      [Compare (key event) "ArrowLeft"; Compare (key event) "ArrowRight";
       Compare (key event) "ArrowUp"; Compare (key event) "ArrowDown"]
  | Throw _ =>
      exists (n : nat) (i : string),
        nth_error [("ArrowLeft", "move-left"); ("ArrowRight", "move-right");
                   ("ArrowUp", "move-up"); ("ArrowDown", "move-down")] n
          = Some (key event, i) /\
        actions_of (clickButtonFunction onclick event p) =
        map (Compare (key event))
            (firstn (S n) ["ArrowLeft"; "ArrowRight"; "ArrowUp"; "ArrowDown"])
          ++ [GetElementById i]
  end.
Proof.
  rewrite clickButtonFunction_table. unfold table_run.
  destruct (key_cases (key event))
    as [E | [E | [E | [E | (E1 & E2 & E3 & E4)]]]].
  - rewrite E. cbn [target_of String.eqb Ascii.eqb Bool.eqb].
    destruct (lookup "move-left" (document p)) as [e|];
      [destruct (has_click e); [reflexivity|]|];
      exists 0, "move-left"; split; reflexivity.
  - rewrite E. cbn [target_of String.eqb Ascii.eqb Bool.eqb].
    destruct (lookup "move-right" (document p)) as [e|];
      [destruct (has_click e); [reflexivity|]|];
      exists 1, "move-right"; split; reflexivity.
  - rewrite E. cbn [target_of String.eqb Ascii.eqb Bool.eqb].
    destruct (lookup "move-up" (document p)) as [e|];
      [destruct (has_click e); [reflexivity|]|];
      exists 2, "move-up"; split; reflexivity.
  - rewrite E. cbn [target_of String.eqb Ascii.eqb Bool.eqb].
    destruct (lookup "move-down" (document p)) as [e|];
      [destruct (has_click e); [reflexivity|]|];
      exists 3, "move-down"; split; reflexivity.
  - unfold target_of. rewrite E1, E2, E3, E4. reflexivity.
Qed.

(** ** X3 *)

(** X3: a call of the handler compares nothing but the key of its event
    with the four literals, looks up no identifier but the one bound to
    that key, and clicks no element but one of the document that carries
    that identifier. *)
Theorem handler_touches_only_its_buttons (event : KeyboardEvent)
    (p : Page Host) :
  Forall
    (fun a =>
       match a with
       | Compare l r =>
           l = key event /\
           In r ["ArrowLeft"; "ArrowRight"; "ArrowUp"; "ArrowDown"]
       | GetElementById i =>
           In (key event, i)
              [("ArrowLeft", "move-left"); ("ArrowRight", "move-right");
               ("ArrowUp", "move-up"); ("ArrowDown", "move-down")]
       | Click e =>
           In e (document p) /\
           In (key event, el_id e)
              [("ArrowLeft", "move-left"); ("ArrowRight", "move-right");
               ("ArrowUp", "move-up"); ("ArrowDown", "move-down")]
       end)
    (actions_of (clickButtonFunction onclick event p)).
Proof.
  assert (Hcmp : forall ks,
             incl ks ["ArrowLeft"; "ArrowRight"; "ArrowUp"; "ArrowDown"] ->
             forall P Q,
               Forall
                 (fun a =>
                    match a with
                    | Compare l r =>
                        l = key event /\
                        In r ["ArrowLeft"; "ArrowRight"; "ArrowUp";
                              "ArrowDown"]
                    | GetElementById i => P i
                    | Click e => Q e
                    end)
                 (comparisons_upto (key event) ks) /\
               Forall
                 (fun a =>
                    match a with
                    | Compare l r =>
                        l = key event /\
                        In r ["ArrowLeft"; "ArrowRight"; "ArrowUp";
                              "ArrowDown"]
                    | GetElementById i => P i
                    | Click e => Q e
                    end)
                 (comparisons_after (key event) ks) /\
               Forall
                 (fun a =>
                    match a with
                    | Compare l r =>
                        l = key event /\
                        In r ["ArrowLeft"; "ArrowRight"; "ArrowUp";
                              "ArrowDown"]
                    | GetElementById i => P i
                    | Click e => Q e
                    end)
                 (map (Compare (key event)) ks)).
  { induction ks as [| l ks IH]; intros Hin P Q.
    - repeat split; constructor.
    - assert (Hl : In l ["ArrowLeft"; "ArrowRight"; "ArrowUp"; "ArrowDown"])
        by (apply Hin; now left).
      assert (Hks : incl ks ["ArrowLeft"; "ArrowRight"; "ArrowUp";
                             "ArrowDown"])
        by (intros x Hx; apply Hin; now right).
      destruct (IH Hks P Q) as (Hu & Ha & Hm).
      cbn [comparisons_upto comparisons_after map].
      destruct (String.eqb (key event) l);
        repeat split; try constructor; auto. }
  destruct (Hcmp recognized_keys (incl_refl _)
              (fun i =>
                 In (key event, i)
                    [("ArrowLeft", "move-left"); ("ArrowRight", "move-right");
                     ("ArrowUp", "move-up"); ("ArrowDown", "move-down")])
              (fun e =>
                 In e (document p) /\
                 In (key event, el_id e)
                    [("ArrowLeft", "move-left"); ("ArrowRight", "move-right");
                     ("ArrowUp", "move-up"); ("ArrowDown", "move-down")]))
    as (Hu & Ha & Hm).
  destruct (target_of (key event)) as [i|] eqn:Ht.
  - pose proof (target_of_some _ _ Ht) as Hk.
    destruct (lookup i (document p)) as [e|] eqn:Hl;
      [destruct (has_click e) eqn:Hc|].
    + rewrite (run_bound onclick _ _ _ _ Ht Hl Hc). unfold actions_of.
      cbn [fst snd]. destruct (lookup_some _ _ _ Hl) as [Hin Hid].
      apply Forall_app. split; [exact Hu|].
      constructor; [exact Hk|]. constructor; [|exact Ha].
      split; [exact Hin | now rewrite Hid].
    + rewrite (run_no_click onclick _ _ _ _ Ht Hl Hc). unfold actions_of.
      cbn [fst snd]. apply Forall_app. split; [exact Hu|].
      constructor; [exact Hk | constructor].
    + rewrite (run_absent onclick _ _ _ Ht Hl). unfold actions_of.
      cbn [fst snd]. apply Forall_app. split; [exact Hu|].
      constructor; [exact Hk | constructor].
  - rewrite (run_unbound onclick _ _ Ht). exact Hm.
Qed.

(** ** Sessions, apart from the records *)

Lemma respond_frame (event : KeyboardEvent) (l : Listener) (p : Page Host) :
  fst (fst (respond onclick event l p)) =
  apply_clicks onclick (activations (snd (fst (respond onclick event l p)))) p.
Proof.
  unfold respond. destruct (String.eqb (fst l) (type event)); [|reflexivity].
  destruct (snd l) as [| name]; cbn [call]; [|reflexivity].
  pose proof (handler_frame onclick event p) as H.
  destruct (clickButtonFunction onclick event p) as [[[c p'] t] r]. exact H.
Qed.

Lemma respond_all_frame (event : KeyboardEvent) (ls : list Listener) :
  forall p : Page Host,
    fst (fst (respond_all onclick event ls p)) =
    apply_clicks onclick
      (activations (snd (fst (respond_all onclick event ls p)))) p.
Proof.
  induction ls as [| l ls IH]; intros p; [reflexivity|].
  cbn [respond_all]. pose proof (respond_frame event l p) as H1.
  destruct (respond onclick event l p) as [[p1 t1] errs1].
  specialize (IH p1).
  destruct (respond_all onclick event ls p1) as [[p2 t2] errs2].
  cbn [fst snd] in *. now rewrite activations_app, apply_clicks_app, <- H1.
Qed.

Lemma session_frame (events : list KeyboardEvent) (ls : list Listener) :
  forall p : Page Host,
    fst (fst (session onclick events ls p)) =
    apply_clicks onclick
      (activations (snd (fst (session onclick events ls p)))) p.
Proof.
  induction events as [| event events IH]; intros p; [reflexivity|].
  cbn [session]. pose proof (respond_all_frame event ls p) as H1.
  destruct (respond_all onclick event ls p) as [[p1 t1] errs1].
  specialize (IH p1).
  destruct (session onclick events ls p1) as [[p2 t2] errs2].
  cbn [fst snd] in *. now rewrite activations_app, apply_clicks_app, <- H1.
Qed.

(** A keydown session with the handler bound once, event by event. *)
Lemma session_keydown_cons (event : KeyboardEvent)
    (events : list KeyboardEvent) (ls : list Listener) (p : Page Host) :
  type event = "keydown" ->
  bindings ls = 1 ->
  session onclick (event :: events) ls p =
  match session onclick events ls
          (page_of (clickButtonFunction onclick event p)) with
  | (p2, t2, errs2) =>
      (p2, actions_of (clickButtonFunction onclick event p) ++ t2,
       (reports_of (clickButtonFunction onclick event p)
          ++ report (completion_of (clickButtonFunction onclick event p)))
         ++ errs2)
  end.
Proof.
  intros Hty Hb. cbn [session].
  now rewrite (respond_all_bound_once onclick _ _ _ Hty Hb).
Qed.

Lemma respond_all_app (event : KeyboardEvent) (l1 l2 : list Listener) :
  forall p : Page Host,
    respond_all onclick event (l1 ++ l2) p =
    match respond_all onclick event l1 p with
    | (p1, t1, errs1) =>
        match respond_all onclick event l2 p1 with
        | (p2, t2, errs2) => (p2, t1 ++ t2, errs1 ++ errs2)
        end
    end.
Proof.
  induction l1 as [| l l1 IH]; intros p.
  - cbn [app respond_all].
    now destruct (respond_all onclick event l2 p) as [[p2 t2] errs2].
  - cbn [app respond_all].
    destruct (respond onclick event l p) as [[p0 t0] errs0]. rewrite IH.
    destruct (respond_all onclick event l1 p0) as [[p1 t1] errs1].
    destruct (respond_all onclick event l2 p1) as [[p2 t2] errs2].
    now rewrite !app_assoc.
Qed.

(** Listeners of other scripts alone leave no action of this script. *)
Lemma respond_all_foreign (event : KeyboardEvent) (ls : list Listener)
    (p : Page Host) :
  (forall l, In l ls -> snd l <> clickButtonFunction_ref) ->
  respond_all onclick event ls p = (p, [], []).
Proof.
  induction ls as [| [ty cb] ls IH]; intros H; [reflexivity|].
  cbn [respond_all]. unfold respond. cbn [fst snd].
  assert (IH' : respond_all onclick event ls p = (p, [], []))
    by (apply IH; intros l Hin; apply H; now right).
  destruct (String.eqb ty (type event)); [|now rewrite IH'].
  destruct cb as [| name].
  - exfalso. apply (H (ty, clickButtonFunction_ref)); [now left | reflexivity].
  - cbn [call]. unfold ret. now rewrite IH'.
Qed.

(** ** X4 *)

(** X4: on a page whose buttons leave the document as it is when
    clicked, with the handler bound once, a sequence of keydown events
    activates, in order, the element each arrow key reaches in that
    document, when it has a [click] method, and nothing for the other
    keys; the document is the same at the end.  When the click listeners
    of the page throw nothing, the console gets one [TypeError] for each
    arrow key whose element is missing or has no [click], and no other
    error. *)
Theorem session_on_a_static_page (events : list KeyboardEvent)
    (b : Browser Host) :
  (forall e q, document (fst (onclick e q)) = document q) ->
  bindings (listeners b) = 1 ->
  Forall (fun event => type event = "keydown") events ->
  activations (activity (dispatch onclick events b)) =
    activations (activity b) ++
    flat_map
      (fun event =>
         match target_of (key event) with
         | Some i =>
             match lookup i (document (page b)) with
             | Some e => if has_click e then [e] else []
             | None => []
             end
         | None => []
         end) events /\
  document (page (dispatch onclick events b)) = document (page b) /\
  ((forall e q, snd (onclick e q) = []) ->
   console (dispatch onclick events b) =
     console b ++
     flat_map
       (fun event =>
          match target_of (key event) with
          | Some i =>
              match lookup i (document (page b)) with
              | Some e =>
                  if has_click e then [] else [TypeError no_click_message]
              | None => [TypeError null_click_message]
              end
          | None => []
          end) events).
Proof.
  intros Hs Hb Hall. destruct b as [p ls a c].
  cbn [listeners page activity console] in *.
  rewrite dispatch_session.
  assert (H : forall q : Page Host,
             document q = document p ->
             activations (snd (fst (session onclick events ls q))) =
               flat_map
                 (fun event =>
                    match target_of (key event) with
                    | Some i =>
                        match lookup i (document p) with
                        | Some e => if has_click e then [e] else []
                        | None => []
                        end
                    | None => []
                    end) events /\
             document (fst (fst (session onclick events ls q))) = document p /\
             ((forall e q', snd (onclick e q') = []) ->
              snd (session onclick events ls q) =
                flat_map
                  (fun event =>
                     match target_of (key event) with
                     | Some i =>
                         match lookup i (document p) with
                         | Some e =>
                             if has_click e then []
                             else [TypeError no_click_message]
                         | None => [TypeError null_click_message]
                         end
                     | None => []
                     end) events)).
  { induction Hall as [| event events Hty Hall IH]; intros q Hq.
    - now repeat split.
    - rewrite (session_keydown_cons _ _ _ _ Hty Hb).
      assert (Hq' : document (page_of (clickButtonFunction onclick event q))
                    = document p).
      { rewrite handler_frame. now rewrite apply_clicks_document. }
      destruct (IH _ Hq') as (Ht & Hd & He).
      destruct (session onclick events ls
                  (page_of (clickButtonFunction onclick event q)))
        as [[p2 t2] errs2].
      cbn [fst snd flat_map] in *.
      rewrite activations_app, run_activations, run_errors, Hq, Ht.
      split; [reflexivity|]. split; [exact Hd|].
      intros Hquiet. rewrite (He Hquiet).
      destruct (target_of (key event)) as [i|]; [|reflexivity].
      destruct (lookup i (document p)) as [e|]; [|reflexivity].
      destruct (has_click e); [|reflexivity]. now rewrite Hquiet. }
  destruct (H p eq_refl) as (Ht & Hd & He).
  destruct (session onclick events ls p) as [[p' t] errs].
  cbn [fst snd page activity console] in *.
  rewrite activations_app, Ht, Hd.
  split; [reflexivity|]. split; [reflexivity|].
  intros Hquiet. now rewrite (He Hquiet).
Qed.

(** ** X5 *)

(** X5: the script binds the handler to [keydown] and to nothing else.
    Loaded on a page where the handler is bound to no event yet, it
    makes an event call the handler exactly when the event is a keydown,
    and then once: the actions of the script on the event are those of
    one call of the handler on the page, and there are none on an event
    of another type, a key released for one, whatever its key. *)
Theorem handler_is_called_on_keydown_only (event : KeyboardEvent)
    (b0 : Browser Host) :
  (forall l, In l (listeners b0) -> snd l <> clickButtonFunction_ref) ->
  activity (deliver onclick event (script_load b0)) =
    activity b0 ++
    (if String.eqb (type event) "keydown"
     then actions_of (clickButtonFunction onclick event (page b0))
     else []).
Proof.
  intros H0. destruct b0 as [p ls a c]. cbn [listeners page activity] in *.
  assert (Hex : existsb (listener_eqb ("keydown", clickButtonFunction_ref)) ls
                = false).
  { destruct (existsb (listener_eqb ("keydown", clickButtonFunction_ref)) ls)
      eqn:E; [|reflexivity].
    exfalso. apply existsb_exists in E. destruct E as ([ty cb] & Hin & Hl).
    unfold listener_eqb in Hl. cbn [fst snd] in Hl.
    apply andb_true_iff in Hl. destruct Hl as [_ Hcb].
    destruct cb as [| name]; [|discriminate Hcb].
    now apply (H0 _ Hin). }
  unfold script_load, addEventListener. cbn [listeners page activity console].
  rewrite Hex, deliver_respond, respond_all_app.
  rewrite (respond_all_foreign event ls p H0).
  cbn [respond_all]. unfold respond. cbn [fst snd call].
  rewrite (String.eqb_sym "keydown" (type event)).
  destruct (String.eqb (type event) "keydown").
  - destruct (clickButtonFunction onclick event p) as [[[c0 p'] t] r].
    unfold actions_of. cbn [activity fst snd]. now rewrite app_nil_r.
  - reflexivity.
Qed.

(** ** X6 *)

(** X6: whatever the events and the listener list, a session leaves the
    listener list alone and changes the page by the clicks the handler
    made in it, in order, and by nothing else. *)
Theorem session_changes_the_page_by_its_clicks (events : list KeyboardEvent)
    (b : Browser Host) :
  exists t : list Action,
    activity (dispatch onclick events b) = activity b ++ t /\
    page (dispatch onclick events b) =
      apply_clicks onclick (activations t) (page b) /\
    listeners (dispatch onclick events b) = listeners b.
Proof.
  destruct b as [p ls a c]. rewrite dispatch_session.
  pose proof (session_frame events ls p) as H.
  destruct (session onclick events ls p) as [[p' t] errs].
  exists t. cbn [fst snd page activity listeners] in *. now repeat split.
Qed.

(** ** X7 *)

(** X7: with the handler bound once, on a page whose click listeners
    throw nothing, every press of an arrow key is accounted for, by one
    activation or by one error on the console, and the other keys by
    neither: the activations and the errors of a sequence of keydown
    events are together as many as the arrow keys in it. *)
Theorem every_arrow_press_is_accounted_for (events : list KeyboardEvent)
    (b : Browser Host) :
  (forall e q, snd (onclick e q) = []) ->
  bindings (listeners b) = 1 ->
  Forall (fun event => type event = "keydown") events ->
  exists (t : list Action) (errs : list JsError),
    activity (dispatch onclick events b) = activity b ++ t /\
    console (dispatch onclick events b) = console b ++ errs /\
    length (activations t) + length errs =
    length
      (filter
         (fun event =>
            existsb (String.eqb (key event))
              ["ArrowLeft"; "ArrowRight"; "ArrowUp"; "ArrowDown"])
         events).
Proof.
  intros Hquiet Hb Hall. destruct b as [p ls a c].
  cbn [listeners page activity console] in *.
  rewrite dispatch_session.
  assert (H : forall q : Page Host,
             length (activations (snd (fst (session onclick events ls q))))
             + length (snd (session onclick events ls q)) =
             length
               (filter
                  (fun event =>
                     existsb (String.eqb (key event))
                       ["ArrowLeft"; "ArrowRight"; "ArrowUp"; "ArrowDown"])
                  events)).
  { induction Hall as [| event events Hty Hall IH]; intros q; [reflexivity|].
    rewrite (session_keydown_cons _ _ _ _ Hty Hb).
    specialize (IH (page_of (clickButtonFunction onclick event q))).
    destruct (session onclick events ls
                (page_of (clickButtonFunction onclick event q)))
      as [[p2 t2] errs2].
    cbn [fst snd filter] in *. set (rest := filter _ events) in *.
    rewrite activations_app, run_activations, run_errors, !length_app.
    destruct (key_cases (key event))
      as [E | [E | [E | [E | (E1 & E2 & E3 & E4)]]]].
    1-4: rewrite E; cbn [target_of existsb String.eqb Ascii.eqb Bool.eqb orb];
         match goal with
         | |- context [lookup ?i ?d] =>
             destruct (lookup i d) as [e|];
             [destruct (has_click e); [rewrite Hquiet|]|]
         end; cbn [length]; lia.
    unfold target_of. cbn [existsb]. rewrite E1, E2, E3, E4.
    cbn [orb length]. lia. }
  specialize (H p).
  destruct (session onclick events ls p) as [[p' t] errs].
  exists t, errs. cbn [fst snd page activity console] in *.
  now repeat split.
Qed.

End Sessions.

(** ** The further properties on the sample pages *)

(** Left, a letter, up, on the board whose buttons count their clicks. *)
Lemma session_on_a_static_page_witness :
  (forall e q, document (fst (counting_click e q)) = document q) /\
  bindings (listeners (script_load (fresh_browser board_page))) = 1 /\
  activations
    (activity
       (dispatch counting_click
          [keydown "ArrowLeft"; keydown "a"; keydown "ArrowUp"]
          (script_load (fresh_browser board_page))))
  = [btn_left; btn_up].
Proof.
  split; [intros e q; reflexivity | split; [reflexivity|]].
  apply (session_on_a_static_page counting_click
           [keydown "ArrowLeft"; keydown "a"; keydown "ArrowUp"]
           (script_load (fresh_browser board_page))
           (fun e q => eq_refl) eq_refl).
  repeat constructor.
Defined.

(** The left arrow released and the left arrow pressed, on the board
    after the load. *)
Lemma handler_is_called_on_keydown_only_witness :
  (forall l, In l (listeners (fresh_browser board_page)) ->
             snd l <> clickButtonFunction_ref) /\
  activity
    (deliver counting_click (keyup "ArrowLeft")
       (script_load (fresh_browser board_page))) = [].
Proof.
  assert (H : forall l, In l (listeners (fresh_browser board_page)) ->
                        snd l <> clickButtonFunction_ref)
    by (intros l [<- | []]; discriminate).
  split; [exact H|].
  apply (handler_is_called_on_keydown_only counting_click
           (keyup "ArrowLeft") (fresh_browser board_page) H).
Defined.

(** Left, [Enter], down, on the page without the buttons: two errors for
    two arrow keys. *)
Lemma every_arrow_press_is_accounted_for_witness :
  (forall e q, snd (counting_click e q) = []) /\
  bindings (listeners (script_load (fresh_browser bare_page))) = 1 /\
  exists (t : list Action) (errs : list JsError),
    activity
      (dispatch counting_click
         [keydown "ArrowLeft"; keydown "Enter"; keydown "ArrowDown"]
         (script_load (fresh_browser bare_page)))
    = activity (script_load (fresh_browser bare_page)) ++ t /\
    console
      (dispatch counting_click
         [keydown "ArrowLeft"; keydown "Enter"; keydown "ArrowDown"]
         (script_load (fresh_browser bare_page)))
    = console (script_load (fresh_browser bare_page)) ++ errs /\
    length (activations t) + length errs = 2.
Proof.
  split; [intros e q; reflexivity | split; [reflexivity|]].
  apply (every_arrow_press_is_accounted_for counting_click
           [keydown "ArrowLeft"; keydown "Enter"; keydown "ArrowDown"]
           (script_load (fresh_browser bare_page))
           (fun e q => eq_refl) eq_refl).
  repeat constructor.
Defined.

Example two_errors_on_the_bare_page :
  console
    (dispatch counting_click
       [keydown "ArrowLeft"; keydown "Enter"; keydown "ArrowDown"]
       (script_load (fresh_browser bare_page)))
  = [TypeError null_click_message; TypeError null_click_message].
Proof. reflexivity. Qed.

(** The down arrow without its button: the three conditions before it
    were tested, and the fourth. *)
Example down_run_absent :
  clickButtonFunction counting_click (keydown "ArrowDown") bare_page =
  (Throw (TypeError null_click_message), bare_page,
   [Compare "ArrowDown" "ArrowLeft"; Compare "ArrowDown" "ArrowRight";
    Compare "ArrowDown" "ArrowUp"; Compare "ArrowDown" "ArrowDown";
    GetElementById "move-down"], []).
Proof. reflexivity. Qed.

(** On the board whose listeners throw, one press gives one activation
    and one error: the listeners must be quiet for the count above. *)
Example throwing_listeners_add_errors :
  length
    (activations
       (activity
          (dispatch throwing_click [keydown "ArrowLeft"]
             (script_load (fresh_browser board_page)))))
  + length
      (console
         (dispatch throwing_click [keydown "ArrowLeft"]
            (script_load (fresh_browser board_page)))) = 2.
Proof. reflexivity. Qed.
